(** * drama.log: rotating file sink and severity-routed bridge

    A shallow embedding of [drama/log.py] (classes [StrftimeHandler],
    [MsgOutHandler], [MsgOutFormatter]) together with the parts of the
    Python runtime the three classes run on: exception classes, the
    [logging] base classes they inherit from, [posixpath.dirname],
    [str.strip] and a small file system.

    The code is effectful and fallible, so it is written in a state and
    exception monad over a [State] holding the world (file system, history
    of calls, active exception), the log record object and the handler
    object.  Every call that leaves the handler goes through [call], where
    the environment may answer with an exception of its choice. *)

From Stdlib Require Import String Ascii List ZArith Bool Lia PeanoNat.
Import ListNotations.
Open Scope list_scope.
Open Scope string_scope.

Set Implicit Arguments.

(* ================================================================== *)
(** ** Python exceptions *)

Module Py.

(** The exception classes the handlers can meet.  [UserClass] stands for
    any class derived from [base]. *)
Inductive PyClass : Type :=
| BaseException
| Exception
| KeyboardInterrupt
| SystemExit
| GeneratorExit
| OSError
| FileExistsError
| FileNotFoundError
| PermissionError
| RuntimeError
| RecursionError
| ValueError
| TypeError
| AttributeError
| BadStatus
| UserClass (name : string) (base : PyClass).

Definition PyClass_eq_dec (c d : PyClass) : {c = d} + {c <> d}.
Proof. decide equality. apply string_dec. Defined.

Definition PyClass_eqb (c d : PyClass) : bool :=
  if PyClass_eq_dec c d then true else false.

(** Modelled from the spec: [BadStatus], the status exception of the
    [drama] extension module, whose source is not at hand, is taken to
    derive from [Exception].  The other classes are Python's.  The
    function gives the method resolution order: the class followed by its
    ancestors. *)
Fixpoint mro (c : PyClass) : list PyClass :=
  c :: match c with
       | BaseException => []
       | Exception | KeyboardInterrupt | SystemExit | GeneratorExit =>
           [BaseException]
       | OSError | RuntimeError | ValueError | TypeError | AttributeError
       | BadStatus =>
           [Exception; BaseException]
       | FileExistsError | FileNotFoundError | PermissionError =>
           [OSError; Exception; BaseException]
       | RecursionError => [RuntimeError; Exception; BaseException]
       | UserClass _ base => mro base
       end.

Definition issubclass (c d : PyClass) : bool :=
  existsb (PyClass_eqb d) (mro c).

(** An exception instance.  [exn_status] and [exn_message] are the
    instance attributes [status] and [message]; an instance of
    [BadStatus] carries both. *)
Record Exn : Type := mkExn {
  exn_class : PyClass;
  exn_str : string;
  exn_status : option Z;
  exn_message : option string
}.

Definition isinstance (e : Exn) (c : PyClass) : bool :=
  issubclass (exn_class e) c.

Definition Traceback := list string.

Inductive Outcome (A : Type) : Type :=
| Ok (a : A)
| Raise (e : Exn).
Arguments Ok {A} a.
Arguments Raise {A} e.

Definition raised {A} (o : Outcome A) : option Exn :=
  match o with
  | Ok _ => None
  | Raise e => Some e
  end.

Definition attribute_error (attr : string) : Exn :=
  mkExn AttributeError attr None None.

(** [v.status] and [v.message]; [v] may be [None]. *)
Definition getattr_status (v : option Exn) : Outcome Z :=
  match v with
  | Some e => match exn_status e with
              | Some s => Ok s
              | None => Raise (attribute_error "status")
              end
  | None => Raise (attribute_error "status")
  end.

Definition getattr_message (v : option Exn) : Outcome string :=
  match v with
  | Some e => match exn_message e with
              | Some m => Ok m
              | None => Raise (attribute_error "message")
              end
  | None => Raise (attribute_error "message")
  end.

(** Modelled from the spec: an instance of the status exception carries
    a numeric [status] and a [message]; this is [BadStatus(status,
    message)]. *)
Definition bad_status (status : Z) (message : string) : Exn :=
  mkExn BadStatus message (Some status) (Some message).

(** ** Strings *)

(** [str.isspace] on code points below 256. *)
Definition isspace (a : ascii) : bool :=
  let n := nat_of_ascii a in
  ((9 <=? n) && (n <=? 13) || (28 <=? n) && (n <=? 32)
   || (n =? 133) || (n =? 160))%nat.

Fixpoint lstrip_chars (l : list ascii) : list ascii :=
  match l with
  | a :: l' => if isspace a then lstrip_chars l' else l
  | [] => []
  end.

Definition rstrip_chars (l : list ascii) : list ascii :=
  rev (lstrip_chars (rev l)).

(** [s.strip()] *)
Definition strip (s : string) : string :=
  string_of_list_ascii (rstrip_chars (lstrip_chars (list_ascii_of_string s))).

(** [''.join(lines)] *)
Definition join (lines : list string) : string :=
  fold_right String.append "" lines.

(** [s[-1:]] *)
Definition last_char (s : string) : string :=
  match rev (list_ascii_of_string s) with
  | a :: _ => String a ""
  | [] => ""
  end.

(** [if s[-1:] == "\n": s = s[:-1]] *)
Definition newline : string := String (ascii_of_nat 10) "".

Definition chop_newline (s : string) : string :=
  match rev (list_ascii_of_string s) with
  | a :: l => if Ascii.eqb a (ascii_of_nat 10)
              then string_of_list_ascii (rev l) else s
  | [] => s
  end.

(** [sub in s] *)
Fixpoint contains (sub s : string) : bool :=
  String.prefix sub s
  || match s with
     | EmptyString => false
     | String _ s' => contains sub s'
     end.

(** ** posixpath *)

Definition sep : ascii := "/"%char.

Fixpoint drop_to_sep (l : list ascii) : list ascii :=
  match l with
  | a :: l' => if Ascii.eqb a sep then l else drop_to_sep l'
  | [] => []
  end.

Fixpoint drop_seps (l : list ascii) : list ascii :=
  match l with
  | a :: l' => if Ascii.eqb a sep then drop_seps l' else l
  | [] => []
  end.

(** [posixpath.dirname]:
    [i = p.rfind('/') + 1; head = p[:i];
     if head and head != '/'*len(head): head = head.rstrip('/')] *)
Definition dirname (p : string) : string :=
  let head := drop_to_sep (rev (list_ascii_of_string p)) in
  match drop_seps head with
  | [] => string_of_list_ascii (rev head)
  | stripped => string_of_list_ascii (rev stripped)
  end.

End Py.
Export Py.

(* ================================================================== *)
(** ** Data of the [logging] and [time] modules *)

(** [time.struct_time] *)
Record struct_time : Type := mkTm {
  tm_year : Z; tm_mon : Z; tm_mday : Z;
  tm_hour : Z; tm_min : Z; tm_sec : Z;
  tm_wday : Z; tm_yday : Z; tm_isdst : Z
}.

(** An exception triple [(type, value, traceback)], each possibly [None]
    ([sys.exc_info()] is [(None, None, None)] when nothing is handled). *)
Record ExcInfo : Type := mkExcInfo {
  ei_type : option PyClass;
  ei_value : option Exn;
  ei_tb : option Traceback
}.

(** [logging.LogRecord].  [created] is the time stamp in epoch seconds;
    [message] and [asctime] are the attributes [Formatter.format] stores
    on the record, [exc_text] is its cache of the exception text. *)
Record LogRecord : Type := mkRecord {
  name : string;
  levelno : Z;
  levelname : string;
  msg : string;
  args : list string;
  created : Z;
  exc_info : option ExcInfo;
  exc_text : option string;
  stack_info : option string;
  message : option string;
  asctime : option string
}.

Definition set_exc_text (x : option string) (r : LogRecord) : LogRecord :=
  mkRecord (name r) (levelno r) (levelname r) (msg r) (args r) (created r)
           (exc_info r) x (stack_info r) (message r) (asctime r).

Definition set_message (x : option string) (r : LogRecord) : LogRecord :=
  mkRecord (name r) (levelno r) (levelname r) (msg r) (args r) (created r)
           (exc_info r) (exc_text r) (stack_info r) x (asctime r).

Definition set_asctime (x : option string) (r : LogRecord) : LogRecord :=
  mkRecord (name r) (levelno r) (levelname r) (msg r) (args r) (created r)
           (exc_info r) (exc_text r) (stack_info r) (message r) x.

(** Levels of the [logging] module. *)
Definition NOTSET : Z := 0.
Definition DEBUG : Z := 10.
Definition INFO : Z := 20.
Definition WARNING : Z := 30.
Definition ERROR : Z := 40.
Definition CRITICAL : Z := 50.

(** The two formatter classes in use: [logging.Formatter] and its
    subclass [MsgOutFormatter] of [drama.log]. *)
Inductive FormatterClass : Type :=
| LoggingFormatter
| MsgOutFormatter.

Record Formatter : Type := mkFormatter {
  formatter_class : FormatterClass;
  formatter_fmt : string
}.

(** [logging._defaultFormatter = Formatter()] *)
Definition defaultFormatter : Formatter :=
  mkFormatter LoggingFormatter "%(message)s".

(** [logging.Handler]: the attributes every handler has. *)
Record Handler : Type := mkHandler {
  level : Z;
  formatter : option Formatter
}.

(** An open file object. *)
Record Stream : Type := mkStream {
  stream_id : nat;
  stream_path : string
}.

Definition Stream_eqb (a b : Stream) : bool :=
  (stream_id a =? stream_id b)%nat && (stream_path a =? stream_path b).

(** [StrftimeHandler(logging.FileHandler)]: the attributes of
    [logging.Handler] and [logging.FileHandler] ([baseFilename], [mode],
    [stream]) and the four of its own. *)
Record StrftimeHandler : Type := mkStrftimeHandler {
  handler : Handler;
  baseFilename : string;
  mode : string;
  stream : option Stream;
  filefmt : string;
  utc : bool;
  chmod : option Z;
  filestr : string
}.

Definition set_filestr (x : string) (h : StrftimeHandler) : StrftimeHandler :=
  mkStrftimeHandler (handler h) (baseFilename h) (mode h) (stream h)
                    (filefmt h) (utc h) (chmod h) x.

Definition set_baseFilename (x : string) (h : StrftimeHandler) : StrftimeHandler :=
  mkStrftimeHandler (handler h) x (mode h) (stream h)
                    (filefmt h) (utc h) (chmod h) (filestr h).

Definition set_stream (x : option Stream) (h : StrftimeHandler) : StrftimeHandler :=
  mkStrftimeHandler (handler h) (baseFilename h) (mode h) x
                    (filefmt h) (utc h) (chmod h) (filestr h).

(** [MsgOutHandler(logging.Handler)] adds no attribute. *)
Definition MsgOutHandler : Type := Handler.

(* ================================================================== *)
(** ** The world outside the handlers *)

(** The calls a handler makes to the operating system, to library code it
    does not define and to the [drama] extension module. *)
Inductive Call : Type :=
| CGmtime (t : Z)
| CLocaltime (t : Z)
| CStrftime (fmt : string) (tm : struct_time)
| CAbspath (p : string)
| CClose (f : Stream)
| CMakedirs (p : string)
| CChmod (p : string) (m : Z)
| CIsdir (p : string)
| COpen (p : string) (md : string)
| CWrite (f : Stream) (text : string)
| CFlush (f : Stream)
| CGetMessage (m : string) (a : list string)
| CFormatTime (t : Z)
| CStyleFormat (fmt : string) (r : LogRecord)
| CFormatException (t : option PyClass) (v : option Exn) (tb : option Traceback)
| CMsgout (m : string)
| CErsout (m : string) (status : Z)
| CHandleError (r : LogRecord).

(** A call together with the exception it raised, if it did. *)
Definition Event : Type := (Call * option Exn)%type.

Definition ev_call (ev : Event) : Call := fst ev.

Definition ev_raised (ev : Event) : option Exn := snd ev.

(** The file system (directories, file contents, open file objects), the
    exception being handled by the thread, and the calls made so far,
    oldest first. *)
Record World : Type := mkWorld {
  w_dirs : list string;
  w_files : list (string * string);
  w_open : list Stream;
  w_next : nat;
  w_exc : option (Exn * Traceback);
  w_trace : list Event
}.

Definition log_event (ev : Event) (w : World) : World :=
  mkWorld (w_dirs w) (w_files w) (w_open w) (w_next w) (w_exc w)
          (w_trace w ++ [ev])%list.

Definition mem (p : string) (l : list string) : bool :=
  existsb (String.eqb p) l.

Fixpoint lookup (p : string) (l : list (string * string)) : option string :=
  match l with
  | (q, c) :: l' => if String.eqb p q then Some c else lookup p l'
  | [] => None
  end.

Fixpoint update (p : string) (c : string) (l : list (string * string))
  : list (string * string) :=
  match l with
  | (q, d) :: l' => if String.eqb p q then (q, c) :: l' else (q, d) :: update p c l'
  | [] => [(p, c)]
  end.

Definition exists_path (p : string) (w : World) : bool :=
  mem p (w_dirs w)
  || match lookup p (w_files w) with Some _ => true | None => false end.

(** The text of the file at [p]; a missing file reads as empty. *)
Definition file_text (w : World) (p : string) : string :=
  match lookup p (w_files w) with
  | Some c => c
  | None => ""
  end.

(** [p] and the directories above it. *)
Fixpoint ancestors (fuel : nat) (p : string) : list string :=
  match fuel with
  | O => []
  | S fuel' =>
      p :: (let d := dirname p in
            if (d =? "") || (d =? p) then [] else ancestors fuel' d)
  end.

(** [os.makedirs(p)] on a file system that has room and grants
    permission: fails when [p] exists, creates the chain otherwise. *)
Definition os_makedirs (p : string) (w : World) : Outcome unit * World :=
  if exists_path p w
  then (Raise (mkExn FileExistsError p None None), w)
  else (Ok tt,
        mkWorld (ancestors (S (String.length p)) p ++ w_dirs w)%list (w_files w)
                (w_open w) (w_next w) (w_exc w) (w_trace w)).

(** [os.chmod(p, m)]: the mode itself is not tracked. *)
Definition os_chmod (p : string) (m : Z) (w : World) : Outcome unit * World :=
  if exists_path p w
  then (Ok tt, w)
  else (Raise (mkExn FileNotFoundError p None None), w).

(** [os.path.isdir(p)] *)
Definition os_isdir (p : string) (w : World) : Outcome bool * World :=
  (Ok (mem p (w_dirs w)), w).

(** The directory an [open] looks the file up in. *)
Definition parent_dir (p : string) : string :=
  if dirname p =? "" then "." else dirname p.

(** [open(p, 'a')]: needs the directory; creates the file when missing. *)
Definition os_open (p : string) (w : World) : Outcome Stream * World :=
  if mem (parent_dir p) (w_dirs w)
  then let f := mkStream (w_next w) p in
       (Ok f,
        mkWorld (w_dirs w)
                (match lookup p (w_files w) with
                 | Some _ => w_files w
                 | None => (w_files w ++ [(p, "")])%list
                 end)
                (f :: w_open w) (S (w_next w)) (w_exc w) (w_trace w))
  else (Raise (mkExn FileNotFoundError p None None), w).

Definition is_open (f : Stream) (w : World) : bool :=
  existsb (Stream_eqb f) (w_open w).

Definition closed_file : Exn :=
  mkExn ValueError "I/O operation on closed file." None None.

(** [f.write(text)] *)
Definition os_write (f : Stream) (text : string) (w : World)
  : Outcome unit * World :=
  if is_open f w
  then (Ok tt,
        mkWorld (w_dirs w)
                (update (stream_path f)
                        (file_text w (stream_path f) ++ text) (w_files w))
                (w_open w) (w_next w) (w_exc w) (w_trace w))
  else (Raise closed_file, w).

(** [f.flush()] *)
Definition os_flush (f : Stream) (w : World) : Outcome unit * World :=
  if is_open f w then (Ok tt, w) else (Raise closed_file, w).

(** [f.close()]: closing a closed file does nothing. *)
Definition os_close (f : Stream) (w : World) : Outcome unit * World :=
  (Ok tt,
   mkWorld (w_dirs w) (w_files w)
           (filter (fun g => negb (Stream_eqb f g)) (w_open w))
           (w_next w) (w_exc w) (w_trace w)).

(** Modelled from the spec: [drama.msgout(text)] and [drama.ersout(text,
    status)] of the extension module hand the text to the task-control
    system; the handlers look at no result and the world of the model is
    left as it is. *)
Definition drama_msgout (text : string) (w : World) : Outcome unit * World :=
  (Ok tt, w).

Definition drama_ersout (text : string) (status : Z) (w : World)
  : Outcome unit * World :=
  (Ok tt, w).

(** [sys.exc_info()] *)
Definition sys_exc_info (w : World) : ExcInfo :=
  match w_exc w with
  | Some (v, tb) => mkExcInfo (Some (exn_class v)) (Some v) (Some tb)
  | None => mkExcInfo None None None
  end.

(** What the handlers do not define and the model leaves open: the clock
    and [strftime], [os.path.abspath], the [%]-formatting of messages and
    of records, the rendering of exceptions by the [traceback] module, and
    [fault], which decides from the calls made so far whether the next
    call raises instead of doing its work. *)
Record Env : Type := mkEnv {
  time_gmtime : Z -> struct_time;
  time_localtime : Z -> struct_time;
  time_strftime : string -> struct_time -> string;
  os_path_abspath : string -> string;
  getMessage : string -> list string -> string;
  formatTime : Z -> string;
  style_format : string -> LogRecord -> string;
  traceback_format_exception :
    option PyClass -> option Exn -> option Traceback -> list string;
  fault : list Event -> Call -> option Exn
}.

(* ================================================================== *)
(** ** The state and exception monad *)

(** The objects an [emit] can touch: the world, the record it is given
    and the handler it is a method of. *)
Record State (T : Type) : Type := mkState {
  st_world : World;
  st_record : LogRecord;
  st_self : T
}.

Definition M (T A : Type) : Type := State T -> Outcome A * State T.

Definition ret {T A} (a : A) : M T A := fun s => (Ok a, s).

Definition raise {T A} (e : Exn) : M T A := fun s => (Raise e, s).

Definition bind {T A B} (m : M T A) (k : A -> M T B) : M T B :=
  fun s => match m s with
           | (Ok a, s') => k a s'
           | (Raise e, s') => (Raise e, s')
           end.

(** [try: body except: handler], the handler looking at the exception. *)
Definition try_except {T A} (body : M T A) (handler : Exn -> M T A) : M T A :=
  fun s => match body s with
           | (Ok a, s') => (Ok a, s')
           | (Raise e, s') => handler e s'
           end.

Declare Scope monad_scope.
Delimit Scope monad_scope with monad.
Notation "x <- m ;; k" := (bind m (fun x => k))
  (at level 61, m at next level, right associativity) : monad_scope.
Notation "m ;; k" := (bind m (fun _ => k))
  (at level 61, right associativity) : monad_scope.
Open Scope monad_scope.

Definition get_record {T} : M T LogRecord := fun s => (Ok (st_record s), s).

Definition get_self {T} : M T T := fun s => (Ok (st_self s), s).

Definition get_world {T} : M T World := fun s => (Ok (st_world s), s).

Definition modify_record {T} (f : LogRecord -> LogRecord) : M T unit :=
  fun s => (Ok tt, mkState (st_world s) (f (st_record s)) (st_self s)).

Definition modify_self {T} (f : T -> T) : M T unit :=
  fun s => (Ok tt, mkState (st_world s) (st_record s) (f (st_self s))).

Definition lift {T A} (o : Outcome A) : M T A := fun s => (o, s).

(* ================================================================== *)
(** ** The handlers *)

Section Handlers.

Variable env : Env.

(** A call to the outside: either the environment makes it raise, or it
    does its work [sem] on the world; the call and its exception, if any,
    are appended to the history. *)
Definition call {T A} (c : Call) (sem : World -> Outcome A * World) : M T A :=
  fun s =>
    match fault env (w_trace (st_world s)) c with
    | Some e =>
        (Raise e,
         mkState (log_event (c, Some e) (st_world s)) (st_record s) (st_self s))
    | None =>
        let (o, w') := sem (st_world s) in
        (o, mkState (log_event (c, raised o) w') (st_record s) (st_self s))
    end.

(** A call whose work is a function of the library. *)
Definition library_call {T A} (c : Call) (a : A) : M T A :=
  call c (fun w => (Ok a, w)).

(** *** logging.Formatter *)

(** [Formatter.usesTime]: the format string mentions [%(asctime)]. *)
Definition usesTime (f : Formatter) : bool :=
  contains "%(asctime)" (formatter_fmt f).

(** [Formatter.formatException]: the exception as [traceback] prints it,
    frames included, without the final newline. *)
Definition Formatter_formatException {T} (ei : ExcInfo) : M T string :=
  lines <- library_call (CFormatException (ei_type ei) (ei_value ei) (ei_tb ei))
             (traceback_format_exception env (ei_type ei) (ei_value ei) (ei_tb ei)) ;;
  ret (chop_newline (join lines)).

(** [Formatter.formatStack] *)
Definition Formatter_formatStack {T} (stack_info : string) : M T string :=
  ret stack_info.

(** *** drama.log.MsgOutFormatter *)

Definition is_BadStatus (t : option PyClass) : bool :=
  match t with
  | Some c => PyClass_eqb c BadStatus
  | None => false
  end.

(** [[
    def formatException(self, exc_info):
        if exc_info[0] == _drama.BadStatus:
            return exc_info[1].message
        else:
            return ''.join(traceback.format_exception(exc_info[0], exc_info[1], None)).strip()
    ]] *)
Definition MsgOutFormatter_formatException {T} (exc_info : ExcInfo) : M T string :=
  if is_BadStatus (ei_type exc_info)
  then lift (getattr_message (ei_value exc_info))
  else
    lines <- library_call (CFormatException (ei_type exc_info) (ei_value exc_info) None)
               (traceback_format_exception env (ei_type exc_info) (ei_value exc_info) None) ;;
    ret (strip (join lines)).

(** [[
    def formatStack(self, stack_info):
        return ''
    ]] *)
Definition MsgOutFormatter_formatStack {T} (stack_info : string) : M T string :=
  ret "".

(** Method dispatch on the class of the formatter. *)
Definition formatException {T} (f : Formatter) (ei : ExcInfo) : M T string :=
  match formatter_class f with
  | LoggingFormatter => Formatter_formatException ei
  | MsgOutFormatter => MsgOutFormatter_formatException ei
  end.

Definition formatStack {T} (f : Formatter) (stack_info : string) : M T string :=
  match formatter_class f with
  | LoggingFormatter => Formatter_formatStack stack_info
  | MsgOutFormatter => MsgOutFormatter_formatStack stack_info
  end.

(** Truth value of an optional string: [None] and [''] are false. *)
Definition truthy (x : option string) : bool :=
  match x with
  | Some s => negb (s =? "")
  | None => false
  end.

Definition text_of (x : option string) : string :=
  match x with
  | Some s => s
  | None => ""
  end.

(** [if s[-1:] != "\n": s = s + "\n"] *)
Definition end_line (s : string) : string :=
  if last_char s =? newline then s else s ++ newline.

(** [Formatter.format] of the standard library:
    [[
    record.message = record.getMessage()
    if self.usesTime():
        record.asctime = self.formatTime(record, self.datefmt)
    s = self.formatMessage(record)
    if record.exc_info:
        if not record.exc_text:
            record.exc_text = self.formatException(record.exc_info)
    if record.exc_text:
        if s[-1:] != "\n": s = s + "\n"
        s = s + record.exc_text
    if record.stack_info:
        if s[-1:] != "\n": s = s + "\n"
        s = s + self.formatStack(record.stack_info)
    return s
    ]] *)
Definition Formatter_format {T} (f : Formatter) : M T string :=
  r <- get_record ;;
  m <- library_call (CGetMessage (msg r) (args r)) (getMessage env (msg r) (args r)) ;;
  modify_record (set_message (Some m)) ;;
  (if usesTime f
   then t <- library_call (CFormatTime (created r)) (formatTime env (created r)) ;;
        modify_record (set_asctime (Some t))
   else ret tt) ;;
  r <- get_record ;;
  s <- library_call (CStyleFormat (formatter_fmt f) r)
         (style_format env (formatter_fmt f) r) ;;
  (match exc_info r with
   | Some ei =>
       if negb (truthy (exc_text r))
       then t <- formatException f ei ;;
            modify_record (set_exc_text (Some t))
       else ret tt
   | None => ret tt
   end) ;;
  r <- get_record ;;
  let s := if truthy (exc_text r)
           then end_line s ++ text_of (exc_text r) else s in
  if truthy (stack_info r)
  then st <- formatStack f (text_of (stack_info r)) ;;
       ret (end_line s ++ st)
  else ret s.

(** *** logging.Handler *)

(** [Handler.format]: the handler's formatter, or the default one. *)
Definition Handler_format {T} (h : Handler) : M T string :=
  match formatter h with
  | Some f => Formatter_format f
  | None => Formatter_format defaultFormatter
  end.

(** [Handler.handleError]: the local error report (a diagnostic on the
    standard error stream).  Its invocation is recorded in the history;
    it returns to the handler. *)
Definition handleError {T} : M T unit :=
  fun s => (Ok tt,
            mkState (log_event (CHandleError (st_record s), None) (st_world s))
                    (st_record s) (st_self s)).

(** The clauses that close both [emit] methods:
    [[
    except (KeyboardInterrupt, SystemExit):
        raise
    except:
        self.handleError(record)
    ]] *)
Definition is_interrupt (e : Exn) : bool :=
  isinstance e KeyboardInterrupt || isinstance e SystemExit.

Definition report_unless_interrupt {T} (e : Exn) : M T unit :=
  if is_interrupt e then raise e else handleError.

(** *** logging.StreamHandler and logging.FileHandler *)

(** [StreamHandler.flush]:
    [if self.stream and hasattr(self.stream, "flush"): self.stream.flush()] *)
Definition StreamHandler_flush : M StrftimeHandler unit :=
  self <- get_self ;;
  match stream self with
  | Some f => call (CFlush f) (os_flush f)
  | None => ret tt
  end.

(** [StreamHandler.emit]:
    [[
    try:
        msg = self.format(record)
        stream = self.stream
        stream.write(msg + self.terminator)
        self.flush()
    except RecursionError:
        raise
    except Exception:
        self.handleError(record)
    ]] *)
Definition StreamHandler_emit : M StrftimeHandler unit :=
  try_except
    (self <- get_self ;;
     msg <- Handler_format (handler self) ;;
     self <- get_self ;;
     match stream self with
     | Some f =>
         call (CWrite f (msg ++ newline)) (os_write f (msg ++ newline)) ;;
         StreamHandler_flush
     | None => raise (attribute_error "write")
     end)
    (fun e =>
       if isinstance e RecursionError then raise e
       else if isinstance e Exception then handleError
       else raise e).

(** [FileHandler._open]: [open(self.baseFilename, self.mode)] *)
Definition FileHandler_open : M StrftimeHandler Stream :=
  self <- get_self ;;
  call (COpen (baseFilename self) (mode self)) (os_open (baseFilename self)).

(** [FileHandler.emit]:
    [[
    if self.stream is None:
        self.stream = self._open()
    StreamHandler.emit(self, record)
    ]]
    (the handler is opened with mode ['a'], for which later versions of
    the library guard the same two statements with conditions that hold). *)
Definition FileHandler_emit : M StrftimeHandler unit :=
  self <- get_self ;;
  (match stream self with
   | None => f <- FileHandler_open ;; modify_self (set_stream (Some f))
   | Some _ => ret tt
   end) ;;
  StreamHandler_emit.

(** *** drama.log.StrftimeHandler *)

(** [[
    def __init__(self, filefmt, utc=False, chmod=None):
        self.filefmt = filefmt
        self.utc = utc
        self.chmod = chmod
        self.filestr = '.'  # fixed on first emit()
        _logging.FileHandler.__init__(self, self.filestr, mode='a', delay=1)
    ]] *)
Definition StrftimeHandler_init (filefmt : string) (utc : bool) (chmod : option Z)
  : StrftimeHandler :=
  mkStrftimeHandler (mkHandler NOTSET None) (os_path_abspath env ".") "a" None
                    filefmt utc chmod ".".

(** [path = _os.path.dirname(self.baseFilename) or '.'] *)
Definition directory_of (baseFilename : string) : string :=
  if dirname baseFilename =? "" then "." else dirname baseFilename.

(** Lines 81 to 88:
    [[
    path = _os.path.dirname(self.baseFilename) or '.'
    try:
        _os.makedirs(path)
        if self.chmod is not None:
            _os.chmod(path, self.chmod)
    except OSError:
        if not _os.path.isdir(path):
            raise
    ]] *)
Definition StrftimeHandler_makedirs : M StrftimeHandler unit :=
  self <- get_self ;;
  let path := directory_of (baseFilename self) in
  try_except
    (call (CMakedirs path) (os_makedirs path) ;;
     self <- get_self ;;
     match chmod self with
     | Some m => call (CChmod path m) (os_chmod path m)
     | None => ret tt
     end)
    (fun e =>
       if isinstance e OSError
       then isdir <- call (CIsdir path) (os_isdir path) ;;
            if negb isdir then raise e else ret tt
       else raise e).

(** Lines 75 to 79, run when the path has changed:
    [[
    self.filestr = filestr
    self.baseFilename = _os.path.abspath(self.filestr)
    if self.stream:
        self.stream.close()
        self.stream = None
    ]] *)
Definition StrftimeHandler_set_path (new_filestr : string) : M StrftimeHandler unit :=
  modify_self (set_filestr new_filestr) ;;
  self <- get_self ;;
  base <- library_call (CAbspath (filestr self)) (os_path_abspath env (filestr self)) ;;
  modify_self (set_baseFilename base) ;;
  self <- get_self ;;
  match stream self with
  | Some f => call (CClose f) (os_close f) ;; modify_self (set_stream None)
  | None => ret tt
  end.

(** Lines 75 to 88: the new path, then the directory. *)
Definition StrftimeHandler_rollover (new_filestr : string) : M StrftimeHandler unit :=
  StrftimeHandler_set_path new_filestr ;;
  StrftimeHandler_makedirs.

(** Lines 68 to 72:
    [[
    t = record.created
    if self.utc:
        filestr = _time.strftime(self.filefmt, _time.gmtime(t))
    else:
        filestr = _time.strftime(self.filefmt, _time.localtime(t))
    ]] *)
Definition StrftimeHandler_resolve : M StrftimeHandler string :=
  record <- get_record ;;
  let t := created record in
  self <- get_self ;;
  if utc self
  then tm <- library_call (CGmtime t) (time_gmtime env t) ;;
       self <- get_self ;;
       library_call (CStrftime (filefmt self) tm) (time_strftime env (filefmt self) tm)
  else tm <- library_call (CLocaltime t) (time_localtime env t) ;;
       self <- get_self ;;
       library_call (CStrftime (filefmt self) tm) (time_strftime env (filefmt self) tm).

(** The body of the [try] of [StrftimeHandler.emit], lines 68 to 89. *)
Definition StrftimeHandler_emit_body : M StrftimeHandler unit :=
  new_filestr <- StrftimeHandler_resolve ;;
  self <- get_self ;;
  (if negb (new_filestr =? filestr self)
   then StrftimeHandler_rollover new_filestr
   else ret tt) ;;
  FileHandler_emit.

(** [StrftimeHandler.emit] *)
Definition StrftimeHandler_emit : M StrftimeHandler unit :=
  try_except StrftimeHandler_emit_body report_unless_interrupt.

(** *** drama.log.MsgOutHandler *)

(** Lines 114 to 117:
    [[
    t,v,tb = sys.exc_info()
    s = 0
    if t == _drama.BadStatus:
        s = v.status
    ]] *)
Definition status_of (ei : ExcInfo) : Outcome Z :=
  if is_BadStatus (ei_type ei)
  then getattr_status (ei_value ei)
  else Ok 0%Z.

Definition MsgOutHandler_status : M MsgOutHandler Z :=
  w <- get_world ;;
  lift (status_of (sys_exc_info w)).

(** The body of the [try] of [MsgOutHandler.emit], lines 108 to 118:
    [[
    record.exc_text = None
    msg = self.format(record)
    record.exc_text = None
    if record.levelno < _logging.WARNING:
        _drama.msgout(msg)
    else:
        t,v,tb = sys.exc_info()
        s = 0
        if t == _drama.BadStatus:
            s = v.status
        _drama.ersout(msg, s)
    ]] *)
Definition MsgOutHandler_emit_body : M MsgOutHandler unit :=
  modify_record (set_exc_text None) ;;
  self <- get_self ;;
  msg <- Handler_format self ;;
  modify_record (set_exc_text None) ;;
  record <- get_record ;;
  if (levelno record <? WARNING)%Z
  then call (CMsgout msg) (drama_msgout msg)
  else s <- MsgOutHandler_status ;;
       call (CErsout msg s) (drama_ersout msg s).

(** [MsgOutHandler.emit] *)
Definition MsgOutHandler_emit : M MsgOutHandler unit :=
  try_except MsgOutHandler_emit_body report_unless_interrupt.

End Handlers.

(** [setup(taskname)], the handlers it builds:
    [[
    f = _logging.Formatter('%(asctime)s %(levelname)s %(name)s: %(message)s')
    strftime_h = StrftimeHandler('/jac_logs/%%Y%%m%%d/%s.log' % (taskname),
                                 utc=True, chmod=0o2777)
    strftime_h.setFormatter(f)
    f = MsgOutFormatter('%(levelname)s:%(message)s')
    msgout_h = MsgOutHandler()
    msgout_h.setFormatter(f)
    msgout_h.setLevel(_logging.INFO)
    ]] *)
Definition setFormatter (f : Formatter) (h : StrftimeHandler) : StrftimeHandler :=
  mkStrftimeHandler (mkHandler (level (handler h)) (Some f))
                    (baseFilename h) (mode h) (stream h)
                    (filefmt h) (utc h) (chmod h) (filestr h).

Definition setup_strftime_h (env : Env) (taskname : string) : StrftimeHandler :=
  setFormatter
    (mkFormatter LoggingFormatter "%(asctime)s %(levelname)s %(name)s: %(message)s")
    (StrftimeHandler_init env ("/jac_logs/%Y%m%d/" ++ taskname ++ ".log")
                          true (Some 1535%Z)).

Definition setup_msgout_h : MsgOutHandler :=
  mkHandler INFO (Some (mkFormatter MsgOutFormatter "%(levelname)s:%(message)s")).

(* ================================================================== *)
(** ** A concrete environment

    A clock on the proleptic Gregorian calendar, a [strftime] for the
    numeric directives, [%(key)s] substitution and the one-line rendering
    of an exception, to run the handlers on concrete inputs. *)

Module Demo.

Definition digit (n : Z) : ascii :=
  ascii_of_nat (48 + Z.to_nat (n mod 10)).

Definition pad2 (n : Z) : string :=
  String (digit (n / 10)) (String (digit n) "").

Definition pad4 (n : Z) : string := pad2 (n / 100) ++ pad2 n.

(** Year, month and day of the day number [z] counted from 1970-01-01. *)
Definition civil_from_days (z : Z) : Z * Z * Z :=
  let z := (z + 719468)%Z in
  let era := (z / 146097)%Z in
  let doe := (z - era * 146097)%Z in
  let yoe := ((doe - doe / 1460 + doe / 36524 - doe / 146096) / 365)%Z in
  let doy := (doe - (365 * yoe + yoe / 4 - yoe / 100))%Z in
  let mp := ((5 * doy + 2) / 153)%Z in
  let d := (doy - (153 * mp + 2) / 5 + 1)%Z in
  let m := (if mp <? 10 then mp + 3 else mp - 9)%Z in
  ((if m <=? 2 then yoe + era * 400 + 1 else yoe + era * 400)%Z, m, d).

Definition gmtime (t : Z) : struct_time :=
  let days := (t / 86400)%Z in
  let secs := (t mod 86400)%Z in
  let '(y, m, d) := civil_from_days days in
  mkTm y m d (secs / 3600) ((secs / 60) mod 60) (secs mod 60)
       ((days + 3) mod 7) 0 0.

(** Local time ten hours behind UTC. *)
Definition localtime (t : Z) : struct_time := gmtime (t - 36000).

Definition directive (d : ascii) (tm : struct_time) : string :=
  if Ascii.eqb d "Y" then pad4 (tm_year tm)
  else if Ascii.eqb d "m" then pad2 (tm_mon tm)
  else if Ascii.eqb d "d" then pad2 (tm_mday tm)
  else if Ascii.eqb d "H" then pad2 (tm_hour tm)
  else if Ascii.eqb d "M" then pad2 (tm_min tm)
  else if Ascii.eqb d "S" then pad2 (tm_sec tm)
  else String d "".

Fixpoint strftime_chars (l : list ascii) (tm : struct_time) : string :=
  match l with
  | c :: l' =>
      if Ascii.eqb c "%"
      then match l' with
           | d :: l'' => directive d tm ++ strftime_chars l'' tm
           | [] => "%"
           end
      else String c (strftime_chars l' tm)
  | [] => ""
  end.

Definition strftime (fmt : string) (tm : struct_time) : string :=
  strftime_chars (list_ascii_of_string fmt) tm.

(** Paths are taken relative to the root directory; no normalisation. *)
Definition abspath (p : string) : string :=
  if String.prefix "/" p then p else "/" ++ p.

Fixpoint drop (n : nat) (s : string) : string :=
  match n, s with
  | S n', String _ s' => drop n' s'
  | _, _ => s
  end.

(** [%(key)s] substitution from a table of fields. *)
Fixpoint substitute (fuel : nat) (fields : list (string * string)) (s : string)
  : string :=
  match fuel, s with
  | S fuel', String c s' =>
      match find (fun kv => String.prefix ("%(" ++ fst kv ++ ")s") s) fields with
      | Some (k, v) => v ++ substitute fuel' fields (drop (String.length k + 4) s)
      | None => String c (substitute fuel' fields s')
      end
  | _, _ => s
  end.

Definition style_format (fmt : string) (r : LogRecord) : string :=
  substitute (S (String.length fmt))
             [("name", name r); ("levelname", levelname r);
              ("message", text_of (message r)); ("asctime", text_of (asctime r))]
             fmt.

(** [%s] substitution from a list of arguments. *)
Fixpoint percent (fuel : nat) (a : list string) (s : string) : string :=
  match fuel, s with
  | S fuel', String c s' =>
      if String.prefix "%s" s
      then match a with
           | x :: a' => x ++ percent fuel' a' (drop 2 s)
           | [] => s
           end
      else String c (percent fuel' a s')
  | _, _ => s
  end.

Definition getMessage (m : string) (a : list string) : string :=
  percent (S (String.length m)) a m.

Definition formatTime (t : Z) : string :=
  strftime "%Y-%m-%d %H:%M:%S" (localtime t) ++ ",000".

Definition class_name (c : PyClass) : string :=
  match c with
  | BaseException => "BaseException"
  | Exception => "Exception"
  | KeyboardInterrupt => "KeyboardInterrupt"
  | SystemExit => "SystemExit"
  | GeneratorExit => "GeneratorExit"
  | OSError => "OSError"
  | FileExistsError => "FileExistsError"
  | FileNotFoundError => "FileNotFoundError"
  | PermissionError => "PermissionError"
  | RuntimeError => "RuntimeError"
  | RecursionError => "RecursionError"
  | ValueError => "ValueError"
  | TypeError => "TypeError"
  | AttributeError => "AttributeError"
  | BadStatus => "drama.BadStatus"
  | UserClass n _ => n
  end.

(** The header and the frames when a traceback is given, then the line
    [Class: text]. *)
Definition summary_line (t : option PyClass) (v : option Exn) : string :=
  match t, v with
  | Some c, Some e => class_name c ++ ": " ++ exn_str e ++ newline
  | Some c, None => class_name c ++ newline
  | None, _ => "NoneType: None" ++ newline
  end.

Definition traceback_header : string :=
  "Traceback (most recent call last):" ++ newline.

Definition format_exception (t : option PyClass) (v : option Exn)
           (tb : option Traceback) : list string :=
  match tb with
  | Some frames => traceback_header :: app frames [summary_line t v]
  | None => [summary_line t v]
  end.

Definition no_fault : list Event -> Call -> option Exn := fun _ _ => None.

(** The environment in which the calls selected by [P] raise [e]. *)
Definition fault_on (P : Call -> bool) (e : Exn) : list Event -> Call -> option Exn :=
  fun _ c => if P c then Some e else None.

Definition env_with (f : list Event -> Call -> option Exn) : Env :=
  mkEnv gmtime localtime strftime abspath getMessage formatTime style_format
        format_exception f.

Definition env0 : Env := env_with no_fault.

(** A file system with the root and [/tmp], nothing open, no exception
    being handled. *)
Definition world0 : World :=
  mkWorld ["/"; "/tmp"] [] [] 3 None [].

Definition world_handling (e : Exn) (tb : Traceback) : World :=
  mkWorld ["/"; "/tmp"] [] [] 3 (Some (e, tb)) [].

(** 2014-09-26 12:00:00 UTC *)
Definition noon : Z := 1411732800%Z.

Definition record_at (lvl : Z) (lvlname : string) (t : Z) (m : string) : LogRecord :=
  mkRecord "MYTASK" lvl lvlname m [] t None None None None None.

Definition with_exc_info (ei : ExcInfo) (r : LogRecord) : LogRecord :=
  mkRecord (name r) (levelno r) (levelname r) (msg r) (args r) (created r)
           (Some ei) (exc_text r) (stack_info r) (message r) (asctime r).

(** [StrftimeHandler('/tmp/x/%Y%m%d.log', utc=True, chmod=0o2777)] *)
Definition tmp_handler (env : Env) : StrftimeHandler :=
  StrftimeHandler_init env "/tmp/x/%Y%m%d.log" true (Some 1535%Z).

Definition info_record : LogRecord := record_at INFO "INFO" noon "hello".


Definition value_error : Exn := mkExn ValueError "boom" None None.

Definition frames : Traceback :=
  ["  File task.py, line 7, in GET" ++ newline].

Definition value_error_info : ExcInfo :=
  mkExcInfo (Some ValueError) (Some value_error) (Some frames).

Definition bad_state : Exn := bad_status 42 "bad state".


(** An ERROR record that carries a [ValueError]. *)
Definition error_record : LogRecord :=
  with_exc_info value_error_info (record_at ERROR "ERROR" noon "oops").

(** The same record after a sink with the standard formatter has cached
    the text of its exception, frames included. *)
Definition cached_record : LogRecord :=
  set_exc_text
    (Some (traceback_header ++ "  File task.py, line 7, in GET" ++ newline
           ++ "ValueError: boom"))
    error_record.

(** The state after [tmp_handler] has emitted [info_record] on [world0]:
    the directory [/tmp/x] made, the log of the day open. *)
Definition opened : State StrftimeHandler :=
  snd (StrftimeHandler_emit env0 (mkState world0 info_record (tmp_handler env0))).

Definition log_stream : Stream := mkStream 3 "/tmp/x/20140926.log".

(** Two records of the same day, one second and one hour later. *)
Definition second_record : LogRecord := record_at INFO "INFO" (noon + 1) "again".

Definition third_record : LogRecord := record_at ERROR "ERROR" (noon + 3600) "late".

(** A record of the next day. *)
Definition next_day_record : LogRecord :=
  record_at INFO "INFO" (noon + 86400) "tomorrow".


Definition disk_full : Exn :=
  mkExn OSError "No space left on device" None None.


Definition type_error : Exn :=
  mkExn TypeError "an integer is required" None None.

End Demo.

(* ================================================================== *)
(** ** Vocabulary of the properties *)

Definition is_format_call (c : Call) : bool :=
  match c with
  | CGetMessage _ _ | CFormatTime _ | CStyleFormat _ _
  | CFormatException _ _ _ => true
  | _ => false
  end.

(** The calls to the two channels of the [drama] module. *)
Definition is_channel_call (c : Call) : bool :=
  match c with
  | CMsgout _ | CErsout _ _ => true
  | _ => false
  end.

Definition channel_calls (l : list Event) : list Call :=
  filter is_channel_call (map ev_call l).

(** The file system and the active exception are the same in [w'] as in
    [w]. *)
Definition same_files (w w' : World) : Prop :=
  w_dirs w' = w_dirs w /\ w_files w' = w_files w /\ w_open w' = w_open w
  /\ w_next w' = w_next w /\ w_exc w' = w_exc w.

(** The fields of a record a caller fills in. *)
Definition same_fields (r r' : LogRecord) : Prop :=
  name r' = name r /\ levelno r' = levelno r /\ levelname r' = levelname r
  /\ msg r' = msg r /\ args r' = args r /\ created r' = created r
  /\ exc_info r' = exc_info r /\ stack_info r' = stack_info r.

(** The history of [w'] is that of [w] followed by calls in [P]. *)
Definition extends_by (P : Call -> bool) (w w' : World) : Prop :=
  exists new, w_trace w' = (w_trace w ++ new)%list
              /\ forallb (fun ev => P (ev_call ev)) new = true.

(** What formatting may do to a state: append formatting calls to the
    history and store its results on the record. *)
Definition format_step {T} (s s' : State T) : Prop :=
  st_self s' = st_self s
  /\ same_files (st_world s) (st_world s')
  /\ same_fields (st_record s) (st_record s')
  /\ extends_by is_format_call (st_world s) (st_world s').

(** The exception being handled is well formed: an instance of
    [BadStatus] has its [status]. *)
Definition has_status (active : option (Exn * Traceback)) : Prop :=
  match active with
  | Some (v, _) => exn_class v = BadStatus -> exn_status v <> None
  | None => True
  end.

(** The status code in the words of the specification: the [status] of
    the exception being handled when its class is exactly [BadStatus],
    0 in every other case. *)
Definition spec_status_code (active : option (Exn * Traceback)) : Z :=
  match active with
  | Some (v, _) =>
      if PyClass_eq_dec (exn_class v) BadStatus
      then match exn_status v with Some st => st | None => 0%Z end
      else 0%Z
  | None => 0%Z
  end.

(** The state in which the bridge formats a record: the record with its
    cached exception text cleared. *)
Definition cleared {T} (w : World) (r : LogRecord) (h : T) : State T :=
  mkState w (set_exc_text None r) h.

(** The calls to the channels made by a run from [s]. *)
Definition channel_calls_of {T A} (m : M T A) (s : State T) : list Call :=
  channel_calls (skipn (length (w_trace (st_world s)))
                       (w_trace (st_world (snd (m s))))).

(** The events appended to the history by a run from [s]. *)
Definition events_of {T A} (m : M T A) (s : State T) : list Event :=
  skipn (length (w_trace (st_world s))) (w_trace (st_world (snd (m s)))).

(** An [emit] that leaves the record as it found it. *)
Definition record_untouched {T A} (m : M T A) (s : State T) : Prop :=
  st_record (snd (m s)) = st_record s.

(** The caller's fields of the record are the same after a step. *)
Definition fields_step {T} (s s' : State T) : Prop :=
  same_fields (st_record s) (st_record s').

(** The path a record resolves to under the handler's template and clock
    setting. *)
Definition resolved (env : Env) (h : StrftimeHandler) (r : LogRecord) : string :=
  time_strftime env (filefmt h)
                (if utc h then time_gmtime env (created r)
                 else time_localtime env (created r)).

Definition is_clock_call (c : Call) : bool :=
  match c with
  | CGmtime _ | CLocaltime _ | CStrftime _ _ => true
  | _ => false
  end.

Definition is_open_call (c : Call) : bool :=
  match c with COpen _ _ => true | _ => false end.

Definition is_close_call (c : Call) : bool :=
  match c with CClose _ => true | _ => false end.


Definition is_chmod_call (c : Call) : bool :=
  match c with CChmod _ _ => true | _ => false end.

Definition is_write_call (c : Call) : bool :=
  match c with CWrite _ _ => true | _ => false end.


(** The calls of an [emit] that keeps its file: the clock, formatting,
    writing and flushing the stream, the error report.  No path is looked
    up, nothing is opened, closed or created. *)
Definition is_steady_call (c : Call) : bool :=
  is_clock_call c || is_format_call c
  || match c with
     | CWrite _ _ | CFlush _ | CHandleError _ => true
     | _ => false
     end.

(** A step that leaves the handler, the directories and the open files
    alone and makes steady calls only. *)
Definition steady_step (s s' : State StrftimeHandler) : Prop :=
  st_self s' = st_self s
  /\ w_dirs (st_world s') = w_dirs (st_world s)
  /\ w_open (st_world s') = w_open (st_world s)
  /\ extends_by is_steady_call (st_world s) (st_world s').

(** A step that changes nothing but the history, by calls in [P]. *)
Definition quiet_step {T} (P : Call -> bool) (s s' : State T) : Prop :=
  st_self s' = st_self s
  /\ st_record s' = st_record s
  /\ same_files (st_world s) (st_world s')
  /\ extends_by P (st_world s) (st_world s').

(** The state with another record handed to the same handler. *)
Definition next_record {T} (r : LogRecord) (s : State T) : State T :=
  mkState (st_world s) r (st_self s).
























(** A computation every run of which takes a state to one related to it
    by [R]. *)
Definition preserves {T A} (R : State T -> State T -> Prop) (m : M T A) : Prop :=
  forall s, R s (snd (m s)).

(* ================================================================== *)
(** * Properties *)

(** ** Pure functions on concrete inputs *)

Example dirname_nested :
  dirname "/jac_logs/20140926/MYTASK.log" = "/jac_logs/20140926".
Proof. reflexivity. Qed.

Example dirname_root : dirname "/x.log" = "/".
Proof. reflexivity. Qed.

Example dirname_bare : dirname "x.log" = "" /\ directory_of "x.log" = ".".
Proof. split; reflexivity. Qed.

Example dirname_slashes : dirname "//x" = "//" /\ dirname "/a//b" = "/a".
Proof. split; reflexivity. Qed.

Example strip_both :
  strip (" ValueError: boom" ++ newline) = "ValueError: boom".
Proof. reflexivity. Qed.

Example gmtime_noon :
  Demo.strftime "/tmp/x/%Y%m%d.log" (Demo.gmtime Demo.noon) = "/tmp/x/20140926.log".
Proof. reflexivity. Qed.

Example subclass_examples :
  issubclass PermissionError OSError = true
  /\ issubclass KeyboardInterrupt Exception = false
  /\ issubclass (UserClass "Timeout" BadStatus) BadStatus = true
  /\ PyClass_eqb (UserClass "Timeout" BadStatus) BadStatus = false.
Proof. repeat split; reflexivity. Qed.

(** ** Classes *)

Lemma PyClass_eqb_eq (c d : PyClass) : PyClass_eqb c d = true <-> c = d.
Proof.
  unfold PyClass_eqb. destruct (PyClass_eq_dec c d); split; congruence.
Qed.

Lemma PyClass_eqb_refl (c : PyClass) : PyClass_eqb c c = true.
Proof. now apply PyClass_eqb_eq. Qed.








(** ** Relations every step of a computation preserves *)

Section Preserves.

Context {T : Type} (R : State T -> State T -> Prop).
Hypothesis R_refl : forall s, R s s.
Hypothesis R_trans : forall a b c, R a b -> R b c -> R a c.

Lemma preserves_ret {A} (a : A) : preserves R (ret a).
Proof. intros s. apply R_refl. Qed.

Lemma preserves_raise {A} (e : Exn) : preserves R (@raise T A e).
Proof. intros s. apply R_refl. Qed.

Lemma preserves_lift {A} (o : Outcome A) : preserves R (lift o).
Proof. intros s. apply R_refl. Qed.

Lemma preserves_get_record : preserves R get_record.
Proof. intros s. apply R_refl. Qed.

Lemma preserves_get_self : preserves R get_self.
Proof. intros s. apply R_refl. Qed.

Lemma preserves_get_world : preserves R get_world.
Proof. intros s. apply R_refl. Qed.

Lemma preserves_bind {A B} (m : M T A) (k : A -> M T B) :
  preserves R m -> (forall a, preserves R (k a)) -> preserves R (bind m k).
Proof.
  intros Hm Hk s. unfold bind. specialize (Hm s).
  destruct (m s) as [[a|e] s1]; simpl in *.
  - eapply R_trans; [exact Hm | apply Hk].
  - exact Hm.
Qed.

Lemma preserves_try_except {A} (body : M T A) (handler : Exn -> M T A) :
  preserves R body -> (forall e, preserves R (handler e)) ->
  preserves R (try_except body handler).
Proof.
  intros Hm Hk s. unfold try_except. specialize (Hm s).
  destruct (body s) as [[a|e] s1]; simpl in *.
  - exact Hm.
  - eapply R_trans; [exact Hm | apply Hk].
Qed.

Lemma preserves_if {A} (b : bool) (m1 m2 : M T A) :
  preserves R m1 -> preserves R m2 -> preserves R (if b then m1 else m2).
Proof. now destruct b. Qed.

End Preserves.

(** ** Formatting *)

Lemma extends_by_refl (P : Call -> bool) (w : World) : extends_by P w w.
Proof. exists []. now rewrite app_nil_r. Qed.

Lemma extends_by_trans (P : Call -> bool) (a b c : World) :
  extends_by P a b -> extends_by P b c -> extends_by P a c.
Proof.
  intros [l1 [E1 F1]] [l2 [E2 F2]]. exists (l1 ++ l2)%list. split.
  - now rewrite E2, E1, app_assoc.
  - now rewrite forallb_app, F1, F2.
Qed.

Lemma extends_by_weaken (P Q : Call -> bool) (a b : World) :
  (forall c, P c = true -> Q c = true) -> extends_by P a b -> extends_by Q a b.
Proof.
  intros H [l [E F]]. exists l. split; [exact E|].
  rewrite forallb_forall in *. intros ev Hin. apply H, F, Hin.
Qed.

Lemma same_files_refl (w : World) : same_files w w.
Proof. now repeat split. Qed.

Lemma same_files_trans (a b c : World) :
  same_files a b -> same_files b c -> same_files a c.
Proof. unfold same_files. intuition congruence. Qed.

Lemma same_fields_refl (r : LogRecord) : same_fields r r.
Proof. now repeat split. Qed.

Lemma same_fields_trans (a b c : LogRecord) :
  same_fields a b -> same_fields b c -> same_fields a c.
Proof. unfold same_fields. intuition congruence. Qed.

Lemma format_step_refl {T} (s : State T) : format_step s s.
Proof.
  repeat split; auto using extends_by_refl.
Qed.

Lemma format_step_trans {T} (a b c : State T) :
  format_step a b -> format_step b c -> format_step a c.
Proof.
  intros (S1 & F1 & R1 & E1) (S2 & F2 & R2 & E2). repeat split.
  - congruence.
  - apply (same_files_trans F1 F2).
  - apply (same_files_trans F1 F2).
  - apply (same_files_trans F1 F2).
  - apply (same_files_trans F1 F2).
  - apply (same_files_trans F1 F2).
  - apply (same_fields_trans R1 R2).
  - apply (same_fields_trans R1 R2).
  - apply (same_fields_trans R1 R2).
  - apply (same_fields_trans R1 R2).
  - apply (same_fields_trans R1 R2).
  - apply (same_fields_trans R1 R2).
  - apply (same_fields_trans R1 R2).
  - apply (same_fields_trans R1 R2).
  - apply (extends_by_trans E1 E2).
Qed.

Section FormatSteps.

Variable env : Env.
Context {T : Type}.

Lemma library_call_format_step {A} (c : Call) (a : A) :
  is_format_call c = true ->
  preserves (@format_step T) (library_call env c a).
Proof.
  intros Hc s. unfold library_call, call.
  destruct (fault env (w_trace (st_world s)) c); simpl;
    (split; [reflexivity|]); (split; [now repeat split|]);
    (split; [apply same_fields_refl|]);
    (eexists; split; [reflexivity|]); simpl; now rewrite Hc.
Qed.

Lemma set_message_format_step (x : option string) :
  preserves (@format_step T) (modify_record (set_message x)).
Proof.
  intros s. repeat split; simpl; auto using extends_by_refl.
Qed.

Lemma set_asctime_format_step (x : option string) :
  preserves (@format_step T) (modify_record (set_asctime x)).
Proof.
  intros s. repeat split; simpl; auto using extends_by_refl.
Qed.

Lemma set_exc_text_format_step (x : option string) :
  preserves (@format_step T) (modify_record (set_exc_text x)).
Proof.
  intros s. repeat split; simpl; auto using extends_by_refl.
Qed.

Lemma formatException_format_step (f : Formatter) (ei : ExcInfo) :
  preserves (@format_step T) (formatException env f ei).
Proof.
  unfold formatException, Formatter_formatException,
    MsgOutFormatter_formatException.
  destruct (formatter_class f); [|destruct (is_BadStatus (ei_type ei))];
    repeat first
      [ apply (preserves_bind (@format_step_trans T)); [|intros ?]
      | apply library_call_format_step; reflexivity
      | apply (preserves_ret _ (@format_step_refl T))
      | apply (preserves_lift _ (@format_step_refl T)) ].
Qed.

Lemma formatStack_format_step (f : Formatter) (si : string) :
  preserves (@format_step T) (formatStack f si).
Proof.
  unfold formatStack. destruct (formatter_class f);
    apply (preserves_ret _ (@format_step_refl T)).
Qed.

Lemma Formatter_format_step (f : Formatter) :
  preserves (@format_step T) (Formatter_format env f).
Proof.
  unfold Formatter_format.
  repeat first
    [ apply (preserves_bind (@format_step_trans T)); [|intros ?]
    | apply library_call_format_step; reflexivity
    | apply set_message_format_step
    | apply set_asctime_format_step
    | apply set_exc_text_format_step
    | apply formatException_format_step
    | apply formatStack_format_step
    | apply (preserves_get_record _ (@format_step_refl T))
    | apply (preserves_ret _ (@format_step_refl T))
    | match goal with
      | |- preserves _ (if ?b then _ else _) => destruct b
      | |- preserves _ (match ?x with Some _ => _ | None => _ end) => destruct x
      end ].
Qed.

Lemma Handler_format_step (h : Handler) :
  preserves (@format_step T) (Handler_format env h).
Proof.
  unfold Handler_format. destruct (formatter h); apply Formatter_format_step.
Qed.

End FormatSteps.

(** ** The bridge: which channel is called *)


Lemma channel_calls_app (l1 l2 : list Event) :
  channel_calls (l1 ++ l2) = (channel_calls l1 ++ channel_calls l2)%list.
Proof. unfold channel_calls. now rewrite map_app, filter_app. Qed.

Lemma channel_calls_cons (c : Call) (x : option Exn) (l : list Event) :
  channel_calls ((c, x) :: l)
  = if is_channel_call c then c :: channel_calls l else channel_calls l.
Proof. reflexivity. Qed.

Lemma channel_calls_format (l : list Event) :
  forallb (fun ev => is_format_call (ev_call ev)) l = true ->
  channel_calls l = [].
Proof.
  induction l as [|[c x] l IH]; simpl; [reflexivity|].
  intros H. apply andb_true_iff in H as [Hc Hl].
  unfold channel_calls in *. simpl.
  destruct c; try discriminate; simpl; auto.
Qed.


Lemma status_of_spec (w : World) :
  has_status (w_exc w) ->
  status_of (sys_exc_info w) = Ok (spec_status_code (w_exc w)).
Proof.
  unfold has_status, spec_status_code, status_of, sys_exc_info.
  destruct (w_exc w) as [[v tb]|]; simpl; [|reflexivity].
  unfold PyClass_eqb. destruct (PyClass_eq_dec (exn_class v) BadStatus) as [E|E].
  - intros H. specialize (H E). simpl. destruct (exn_status v); [reflexivity|congruence].
  - reflexivity.
Qed.

Lemma sys_exc_info_same (w w' : World) :
  same_files w w' -> sys_exc_info w' = sys_exc_info w.
Proof. intros (_ & _ & _ & _ & E). unfold sys_exc_info. now rewrite E. Qed.

(** The closing clauses add at most the report to the history. *)
Lemma try_report_trace {T} (m : M T unit) (s : State T) :
  exists ev,
    w_trace (st_world (snd (try_except m report_unless_interrupt s)))
    = (w_trace (st_world (snd (m s))) ++ ev)%list
    /\ (ev = [] \/ exists r, ev = [(CHandleError r, None)]).
Proof.
  unfold try_except. destruct (m s) as [[[]|e] s1]; simpl.
  - exists []. rewrite app_nil_r. auto.
  - unfold report_unless_interrupt. destruct (is_interrupt e); simpl.
    + exists []. rewrite app_nil_r. auto.
    + eexists. split; [reflexivity|]. right. eexists. reflexivity.
Qed.

Lemma MsgOutHandler_emit_body_run (env : Env) (h : MsgOutHandler) (r : LogRecord) (w : World) :
  MsgOutHandler_emit_body env (mkState w r h) =
  match Handler_format env h (cleared w r h) with
  | (Raise e, s1) => (Raise e, s1)
  | (Ok text, s1) =>
      let s2 := mkState (st_world s1) (set_exc_text None (st_record s1)) (st_self s1) in
      if (levelno (st_record s1) <? WARNING)%Z
      then call env (CMsgout text) (drama_msgout text) s2
      else match status_of (sys_exc_info (st_world s1)) with
           | Ok code => call env (CErsout text code) (drama_ersout text code) s2
           | Raise e => (Raise e, s2)
           end
  end.
Proof.
  unfold MsgOutHandler_emit_body, bind, cleared. simpl.
  destruct (Handler_format env h _) as [[text|e] s1]; simpl; [|reflexivity].
  destruct (levelno (st_record s1) <? WARNING)%Z; [reflexivity|].
  unfold MsgOutHandler_status, lift, get_world, bind. simpl.
  destruct (status_of _); reflexivity.
Qed.

Lemma call_trace {T A} (env : Env) (c : Call) (sem : World -> Outcome A * World)
      (s : State T) :
  (forall w, w_trace (snd (sem w)) = w_trace w) ->
  exists x, w_trace (st_world (snd (call env c sem s)))
            = (w_trace (st_world s) ++ [(c, x)])%list.
Proof.
  intros Hsem. unfold call.
  destruct (fault env (w_trace (st_world s)) c); simpl.
  - eexists. reflexivity.
  - specialize (Hsem (st_world s)). destruct (sem (st_world s)) as [o w']. simpl in *.
    rewrite Hsem. eexists. reflexivity.
Qed.

(** The channel calls of one [emit] of the bridge. *)
Lemma MsgOutHandler_emit_channels (env : Env) (h : MsgOutHandler)
      (r : LogRecord) (w : World) :
  channel_calls_of (MsgOutHandler_emit env) (mkState w r h) =
  match fst (Handler_format env h (cleared w r h)) with
  | Ok text =>
      if (levelno r <? WARNING)%Z then [CMsgout text]
      else match status_of (sys_exc_info w) with
           | Ok code => [CErsout text code]
           | Raise _ => []
           end
  | Raise _ => []
  end.
Proof.
  unfold channel_calls_of, MsgOutHandler_emit.
  destruct (try_report_trace (MsgOutHandler_emit_body env) (mkState w r h))
    as [ev [-> Hev]].
  assert (Cev : channel_calls ev = []) by (destruct Hev as [->|[r' ->]]; reflexivity).
  rewrite MsgOutHandler_emit_body_run.
  pose proof (Handler_format_step env h (cleared w r h))
    as (Hself & Hfiles & Hfields & [fe [Htr Hfe]]).
  destruct (Handler_format env h (cleared w r h)) as [[text|e] s1]; simpl in *.
  - destruct Hfields as (_ & Hlvl & _). rewrite Hlvl, (sys_exc_info_same Hfiles). simpl.
    set (s2 := mkState (st_world s1) (set_exc_text None (st_record s1)) (st_self s1)).
    assert (Hcall : forall c (sem : World -> Outcome unit * World),
               (forall w0, w_trace (snd (sem w0)) = w_trace w0) ->
               exists x,
                 w_trace (st_world (snd (call env c sem s2)))
                 = (w_trace w ++ fe ++ [(c, x)])%list).
    { intros c sem Hsem. destruct (call_trace env c sem s2 Hsem) as [x E].
      exists x. rewrite E. simpl. now rewrite Htr, app_assoc. }
    destruct (levelno r <? WARNING)%Z.
    + destruct (Hcall (CMsgout text) (drama_msgout text)) as [x ->]; [reflexivity|].
      rewrite <- !app_assoc, skipn_app, skipn_all, Nat.sub_diag. simpl.
      rewrite ?channel_calls_app, ?channel_calls_cons, (channel_calls_format _ Hfe), ?Cev; reflexivity.
    + destruct (status_of (sys_exc_info w)) as [code|e0].
      * destruct (Hcall (CErsout text code) (drama_ersout text code)) as [x ->];
          [reflexivity|].
        rewrite <- !app_assoc, skipn_app, skipn_all, Nat.sub_diag. simpl.
        rewrite ?channel_calls_app, ?channel_calls_cons, (channel_calls_format _ Hfe), ?Cev; reflexivity.
      * simpl. rewrite Htr.
        rewrite <- !app_assoc, skipn_app, skipn_all, Nat.sub_diag. simpl.
        rewrite ?channel_calls_app, ?channel_calls_cons, (channel_calls_format _ Hfe), ?Cev; reflexivity.
  - rewrite Htr.
    rewrite <- !app_assoc, skipn_app, skipn_all, Nat.sub_diag. simpl.
    rewrite ?channel_calls_app, ?channel_calls_cons, (channel_calls_format _ Hfe), ?Cev; reflexivity.
Qed.

(** ** The bridge: severity routing and status code *)

(** [C1] A record the bridge formats to [text] makes exactly one call to
    the channels: [msgout text] when its level is below [WARNING], and
    [ersout text code] otherwise -- never the other one.  In particular a
    record of level [INFO] goes to [msgout] and one of level [ERROR] to
    [ersout]. *)
Theorem bridge_routes_by_severity (env : Env) (h : MsgOutHandler)
        (r : LogRecord) (w : World) (text : string) :
  fst (Handler_format env h (cleared w r h)) = Ok text ->
  has_status (w_exc w) ->
  channel_calls_of (MsgOutHandler_emit env) (mkState w r h)
  = [if (levelno r <? WARNING)%Z
     then CMsgout text
     else CErsout text (spec_status_code (w_exc w))]
  /\ (levelno r = INFO ->
      channel_calls_of (MsgOutHandler_emit env) (mkState w r h) = [CMsgout text])
  /\ (levelno r = ERROR ->
      exists code,
        channel_calls_of (MsgOutHandler_emit env) (mkState w r h)
        = [CErsout text code]).
Proof.
  intros Hfmt Hst.
  assert (E : channel_calls_of (MsgOutHandler_emit env) (mkState w r h)
              = [if (levelno r <? WARNING)%Z
                 then CMsgout text
                 else CErsout text (spec_status_code (w_exc w))]).
  { rewrite MsgOutHandler_emit_channels, Hfmt, (status_of_spec _ Hst).
    now destruct (levelno r <? WARNING)%Z. }
  split; [exact E|]. split.
  - intros L. rewrite E, L. reflexivity.
  - intros L. eexists. rewrite E, L. reflexivity.
Qed.

Lemma bridge_routes_by_severity_witness :
  channel_calls_of (MsgOutHandler_emit Demo.env0)
                   (mkState Demo.world0 Demo.info_record setup_msgout_h)
  = [CMsgout "INFO:hello"].
Proof.
  refine (proj1 (bridge_routes_by_severity Demo.env0 setup_msgout_h
                   Demo.info_record Demo.world0 (text := "INFO:hello") _ _)).
  - reflexivity.
  - exact I.
Defined.

(** [C2] On the error channel the status code comes from the exception
    the thread is handling, whatever the record's own [exc_info]: it is
    that exception's [status] when its class is exactly [BadStatus], and 0
    when no exception is being handled or its class is any other one. *)
Theorem bridge_status_from_active_exception (env : Env) (h : MsgOutHandler)
        (r : LogRecord) (w : World) (text : string) :
  fst (Handler_format env h (cleared w r h)) = Ok text ->
  (WARNING <= levelno r)%Z ->
  has_status (w_exc w) ->
  status_of (sys_exc_info w) = Ok (spec_status_code (w_exc w))
  /\ channel_calls_of (MsgOutHandler_emit env) (mkState w r h)
     = [CErsout text (spec_status_code (w_exc w))].
Proof.
  intros Hfmt Hlvl Hst. split; [now apply status_of_spec|].
  rewrite MsgOutHandler_emit_channels, Hfmt, (status_of_spec _ Hst).
  destruct (Z.ltb_spec (levelno r) WARNING); [unfold WARNING in *; lia|reflexivity].
Qed.

Lemma bridge_status_from_active_exception_witness :
  channel_calls_of (MsgOutHandler_emit Demo.env0)
    (mkState (Demo.world_handling Demo.bad_state Demo.frames)
             Demo.error_record setup_msgout_h)
  = [CErsout ("ERROR:oops" ++ newline ++ "ValueError: boom") 42%Z].
Proof.
  refine (proj2 (bridge_status_from_active_exception Demo.env0 setup_msgout_h
           Demo.error_record (Demo.world_handling Demo.bad_state Demo.frames)
           (text := "ERROR:oops" ++ newline ++ "ValueError: boom") _ _ _)).
  - reflexivity.
  - apply Z.leb_le. reflexivity.
  - simpl. discriminate.
Defined.

(** The status code in the three cases. *)
Lemma spec_status_code_cases (v : Exn) (tb : Traceback) (st : Z) :
  spec_status_code None = 0%Z
  /\ (exn_class v <> BadStatus -> spec_status_code (Some (v, tb)) = 0%Z)
  /\ (exn_class v = BadStatus -> exn_status v = Some st ->
      spec_status_code (Some (v, tb)) = st).
Proof.
  unfold spec_status_code. split; [reflexivity|].
  destruct (PyClass_eq_dec (exn_class v) BadStatus); split; try congruence.
  intros _ ->. reflexivity.
Qed.

Example status_of_subclass :
  status_of (sys_exc_info
               (Demo.world_handling
                  (mkExn (UserClass "Timeout" BadStatus) "late" (Some 7%Z) (Some "late"))
                  Demo.frames))
  = Ok 0%Z.
Proof. reflexivity. Qed.



Example just_below_WARNING :
  channel_calls_of (MsgOutHandler_emit Demo.env0)
    (mkState Demo.world0 (Demo.record_at 29 "Level 29" Demo.noon "almost")
             setup_msgout_h)
  = [CMsgout "Level 29:almost"].
Proof. reflexivity. Qed.

(** ** The formatter of the bridge *)



(** The standard formatter, by contrast, renders the frames. *)
Example Formatter_keeps_traces :
  fst (Formatter_formatException Demo.env0 Demo.value_error_info
         (mkState Demo.world0 Demo.error_record setup_msgout_h))
  = Ok (Demo.traceback_header ++ "  File task.py, line 7, in GET" ++ newline
        ++ "ValueError: boom").
Proof. reflexivity. Qed.

(** ** The record across an [emit] *)

Lemma fields_step_refl {T} (s : State T) : fields_step s s.
Proof. apply same_fields_refl. Qed.

Lemma fields_step_trans {T} (a b c : State T) :
  fields_step a b -> fields_step b c -> fields_step a c.
Proof. apply same_fields_trans. Qed.

Section FieldsSteps.

Variable env : Env.
Context {T : Type}.

Lemma call_fields_step {A} (c : Call) (sem : World -> Outcome A * World) :
  preserves (@fields_step T) (call env c sem).
Proof.
  intros s. unfold call.
  destruct (fault env (w_trace (st_world s)) c); [|destruct (sem (st_world s))];
    apply same_fields_refl.
Qed.

Lemma modify_self_fields_step (f : T -> T) :
  preserves (@fields_step T) (modify_self f).
Proof. intros s. apply same_fields_refl. Qed.

Lemma handleError_fields_step : preserves (@fields_step T) handleError.
Proof. intros s. apply same_fields_refl. Qed.

Lemma Handler_format_fields_step (h : Handler) :
  preserves (@fields_step T) (Handler_format env h).
Proof. intros s. apply (Handler_format_step env h s). Qed.

Lemma report_fields_step (e : Exn) :
  preserves (@fields_step T) (report_unless_interrupt e).
Proof.
  intros s. unfold report_unless_interrupt.
  destruct (is_interrupt e); apply same_fields_refl.
Qed.

End FieldsSteps.

Ltac fields_steps :=
  repeat first
    [ apply (preserves_bind (@fields_step_trans _)); [|intros ?]
    | apply (preserves_try_except (@fields_step_trans _)); [|intros ?]
    | apply call_fields_step
    | apply modify_self_fields_step
    | apply handleError_fields_step
    | apply Handler_format_fields_step
    | apply report_fields_step
    | apply (preserves_ret _ (@fields_step_refl _))
    | apply (preserves_raise _ (@fields_step_refl _))
    | apply (preserves_lift _ (@fields_step_refl _))
    | apply (preserves_get_record _ (@fields_step_refl _))
    | apply (preserves_get_self _ (@fields_step_refl _))
    | apply (preserves_get_world _ (@fields_step_refl _))
    | match goal with
      | |- preserves _ (if ?b then _ else _) => destruct b
      | |- preserves _ (match ?x with Some _ => _ | None => _ end) => destruct x
      end ].

Lemma StrftimeHandler_emit_fields_step (env : Env) :
  preserves (@fields_step _) (StrftimeHandler_emit env).
Proof.
  unfold StrftimeHandler_emit, StrftimeHandler_emit_body,
    StrftimeHandler_resolve, StrftimeHandler_rollover,
    StrftimeHandler_makedirs, FileHandler_emit, FileHandler_open,
    StreamHandler_emit, StreamHandler_flush, library_call.
  fields_steps.
Qed.

Lemma MsgOutHandler_emit_fields_step (env : Env) :
  preserves (@fields_step _) (MsgOutHandler_emit env).
Proof.
  unfold MsgOutHandler_emit, MsgOutHandler_emit_body, MsgOutHandler_status.
  fields_steps.
Qed.

(** [C5], as stated, fails: the bridge assigns to the record.  A record
    whose exception text an earlier sink has cached comes back from the
    bridge with [exc_text] reset to [None]. *)
Lemma bridge_resets_exc_text :
  let s := mkState Demo.world0 Demo.cached_record setup_msgout_h in
  exc_text (st_record s) <> None
  /\ exc_text (st_record (snd (MsgOutHandler_emit Demo.env0 s))) = None
  /\ ~ record_untouched (MsgOutHandler_emit Demo.env0) s.
Proof.
  intros s. split; [discriminate|]. split; [reflexivity|].
  unfold record_untouched. intros H.
  apply (f_equal exc_text) in H. discriminate H.
Qed.

(** [C5], amended.  Neither sink modifies a field the caller supplied
    (name, level, message and arguments, time stamp, [exc_info],
    [stack_info]); what formatting computes is stored on the record, and
    the bridge resets [exc_text]: it behaves the same whatever text an
    earlier sink cached there, and leaves [None] behind when formatting
    succeeds. *)
Theorem sinks_keep_caller_fields (env : Env) :
  (forall s, same_fields (st_record s)
                         (st_record (snd (StrftimeHandler_emit env s))))
  /\ (forall s, same_fields (st_record s)
                            (st_record (snd (MsgOutHandler_emit env s))))
  /\ (forall w r (h : MsgOutHandler) cached,
         MsgOutHandler_emit env (mkState w (set_exc_text cached r) h)
         = MsgOutHandler_emit env (mkState w r h))
  /\ (forall w r (h : MsgOutHandler),
         match fst (Handler_format env h (cleared w r h)) with
         | Ok _ => exc_text (st_record (snd (MsgOutHandler_emit env (mkState w r h))))
                   = None
         | Raise _ => True
         end).
Proof.
  split; [exact (StrftimeHandler_emit_fields_step env)|].
  split; [exact (MsgOutHandler_emit_fields_step env)|].
  split; [reflexivity|].
  intros w r h. unfold MsgOutHandler_emit.
  unfold try_except. rewrite MsgOutHandler_emit_body_run.
  destruct (Handler_format env h (cleared w r h)) as [[text|e] s1]; simpl; [|exact I].
  set (s2 := mkState (st_world s1) (set_exc_text None (st_record s1)) (st_self s1)).
  assert (Hcall : forall c (sem : World -> Outcome unit * World),
             exc_text (st_record (snd (
               match call env c sem s2 with
               | (Ok a, s') => (Ok a, s')
               | (Raise e, s') => report_unless_interrupt e s'
               end))) = None).
  { intros c sem. unfold call.
    destruct (fault env (w_trace (st_world s2)) c) as [e|]; simpl.
    - unfold report_unless_interrupt. now destruct (is_interrupt e).
    - destruct (sem (st_world s1)) as [[[]|e] w']; simpl; [reflexivity|].
      unfold report_unless_interrupt. now destruct (is_interrupt e). }
  destruct (levelno (st_record s1) <? WARNING)%Z; [apply Hcall|].
  destruct (status_of (sys_exc_info (st_world s1))) as [code|e]; [apply Hcall|].
  unfold report_unless_interrupt. now destruct (is_interrupt e).
Qed.

(** ** The rotating sink: resolving the path *)

Lemma extends_by_log (P : Call -> bool) (c : Call) (x : option Exn) (w w' : World) :
  extends_by P w w' -> P c = true -> extends_by P w (log_event (c, x) w').
Proof.
  intros [new [E F]] Hc. exists (new ++ [(c, x)])%list. split.
  - simpl. now rewrite E, app_assoc.
  - rewrite forallb_app, F. simpl. now rewrite Hc.
Qed.

Lemma resolve_spec (env : Env) (s : State StrftimeHandler) :
  quiet_step is_clock_call s (snd (StrftimeHandler_resolve env s))
  /\ (fst (StrftimeHandler_resolve env s)
      = Ok (resolved env (st_self s) (st_record s))
      \/ exists e, fst (StrftimeHandler_resolve env s) = Raise e).
Proof.
  unfold StrftimeHandler_resolve, resolved, bind, get_record, get_self,
    library_call, call, quiet_step, same_files.
  destruct (utc (st_self s)); simpl.
  - destruct (fault env (w_trace (st_world s)) (CGmtime (created (st_record s)))) as [e|];
      simpl; [|destruct (fault env _ (CStrftime _ _)) as [e|]; simpl];
      (repeat split; [|eauto]);
      repeat (apply extends_by_log; [|reflexivity]); apply extends_by_refl.
  - destruct (fault env (w_trace (st_world s)) (CLocaltime (created (st_record s)))) as [e|];
      simpl; [|destruct (fault env _ (CStrftime _ _)) as [e|]; simpl];
      (repeat split; [|eauto]);
      repeat (apply extends_by_log; [|reflexivity]); apply extends_by_refl.
Qed.

(** ** The rotating sink: an [emit] that keeps its file *)

Lemma steady_step_refl (s : State StrftimeHandler) : steady_step s s.
Proof. repeat split. apply extends_by_refl. Qed.

Lemma steady_step_trans (a b c : State StrftimeHandler) :
  steady_step a b -> steady_step b c -> steady_step a c.
Proof.
  intros (S1 & D1 & O1 & E1) (S2 & D2 & O2 & E2).
  repeat split; try congruence. apply (extends_by_trans E1 E2).
Qed.

Lemma call_steady_step (env : Env) {A} (c : Call)
      (sem : World -> Outcome A * World) :
  is_steady_call c = true ->
  (forall w, w_dirs (snd (sem w)) = w_dirs w
             /\ w_open (snd (sem w)) = w_open w
             /\ w_trace (snd (sem w)) = w_trace w) ->
  preserves steady_step (call env c sem).
Proof.
  intros Hc Hsem s. unfold call.
  destruct (fault env (w_trace (st_world s)) c).
  - repeat split. simpl. apply extends_by_log; [apply extends_by_refl|exact Hc].
  - destruct (Hsem (st_world s)) as (D & O & E).
    destruct (sem (st_world s)) as [o w']. simpl in *.
    repeat split; try assumption.
    exists [(c, raised o)]. simpl. now rewrite E, Hc.
Qed.

Lemma format_steady_step (env : Env) (h : Handler) :
  preserves steady_step (Handler_format env h).
Proof.
  intros s.
  destruct (Handler_format_step env h s) as (S & (D & _ & O & _) & _ & E).
  repeat split; try assumption.
  apply (extends_by_weaken (P := is_format_call)); [|exact E].
  intros c Hc. unfold is_steady_call. rewrite Hc. now rewrite orb_true_r.
Qed.

Lemma handleError_steady_step : preserves steady_step handleError.
Proof.
  intros s. repeat split. simpl.
  apply extends_by_log; [apply extends_by_refl|reflexivity].
Qed.

Lemma report_steady_step (e : Exn) :
  preserves steady_step (report_unless_interrupt e).
Proof.
  unfold report_unless_interrupt. destruct (is_interrupt e).
  - apply (preserves_raise _ steady_step_refl).
  - apply handleError_steady_step.
Qed.

Lemma os_write_frame (f : Stream) (text : string) (w : World) :
  w_dirs (snd (os_write f text w)) = w_dirs w
  /\ w_open (snd (os_write f text w)) = w_open w
  /\ w_trace (snd (os_write f text w)) = w_trace w.
Proof. unfold os_write. now destruct (is_open f w). Qed.

Lemma os_flush_frame (f : Stream) (w : World) :
  w_dirs (snd (os_flush f w)) = w_dirs w
  /\ w_open (snd (os_flush f w)) = w_open w
  /\ w_trace (snd (os_flush f w)) = w_trace w.
Proof. unfold os_flush. now destruct (is_open f w). Qed.

Lemma StreamHandler_emit_steady (env : Env) :
  preserves steady_step (StreamHandler_emit env).
Proof.
  unfold StreamHandler_emit, StreamHandler_flush.
  repeat first
    [ apply (preserves_bind steady_step_trans); [|intros ?]
    | apply (preserves_try_except steady_step_trans); [|intros ?]
    | apply call_steady_step; [reflexivity|first [apply os_write_frame|apply os_flush_frame]]
    | apply format_steady_step
    | apply handleError_steady_step
    | apply (preserves_ret _ steady_step_refl)
    | apply (preserves_raise _ steady_step_refl)
    | apply (preserves_get_self _ steady_step_refl)
    | match goal with
      | |- preserves _ (if ?b then _ else _) => destruct b
      | |- preserves _ (match ?x with Some _ => _ | None => _ end) => destruct x
      end ].
Qed.

Lemma quiet_clock_steady (s s' : State StrftimeHandler) :
  quiet_step is_clock_call s s' -> steady_step s s'.
Proof.
  intros (S & _ & (D & _ & O & _) & E). repeat split; try assumption.
  apply (extends_by_weaken (P := is_clock_call)); [|exact E].
  intros c Hc. unfold is_steady_call. now rewrite Hc.
Qed.

(** One [emit] of a record that resolves to the current path, the file
    being open. *)
Lemma StrftimeHandler_emit_steady (env : Env) (s : State StrftimeHandler)
      (f : Stream) :
  stream (st_self s) = Some f ->
  resolved env (st_self s) (st_record s) = filestr (st_self s) ->
  steady_step s (snd (StrftimeHandler_emit env s)).
Proof.
  intros Hstream Hpath.
  unfold StrftimeHandler_emit, try_except, StrftimeHandler_emit_body.
  unfold bind at 1.
  destruct (resolve_spec env s) as [Hq Hout].
  pose proof (quiet_clock_steady Hq) as Hs1.
  destruct Hq as (Hself & Hrec & _ & _).
  destruct (StrftimeHandler_resolve env s) as [o s1]. simpl in *.
  destruct Hout as [->|[e ->]].
  - unfold bind at 1. unfold get_self at 1. simpl.
    rewrite Hself, Hpath, String.eqb_refl. simpl.
    unfold bind at 1, ret at 1.
    unfold FileHandler_emit. unfold bind at 1 2. unfold get_self at 1. simpl.
    rewrite Hself, Hstream. unfold ret at 1.
    pose proof (StreamHandler_emit_steady env s1) as Hs2.
    destruct (StreamHandler_emit env s1) as [[[]|e] s2]; simpl in *.
    + apply (steady_step_trans Hs1 Hs2).
    + eapply steady_step_trans; [exact (steady_step_trans Hs1 Hs2)|].
      apply report_steady_step.
  - eapply steady_step_trans; [exact Hs1|]. apply report_steady_step.
Qed.

Lemma steady_no_open (l : list Event) :
  forallb (fun ev => is_steady_call (ev_call ev)) l = true ->
  filter (fun ev => is_open_call (ev_call ev) || is_close_call (ev_call ev)) l = [].
Proof.
  induction l as [|[c x] l IH]; simpl; [reflexivity|].
  intros H. apply andb_true_iff in H as [Hc Hl]. rewrite (IH Hl).
  destruct c; try discriminate Hc; reflexivity.
Qed.

(** [C6] Two records that resolve to the path of the file the handler has
    open: across both calls of [emit] the handler is left as it was, path
    and stream included, the file stays open, and the calls made are
    those of the clock, the formatter, [write], [flush] and the error
    report -- no [open], no [close], no look at the file system; the path
    is compared as a string. *)
Theorem no_reopen_on_same_path (env : Env) (h : StrftimeHandler)
        (r1 r2 : LogRecord) (w : World) (f : Stream) :
  stream h = Some f ->
  resolved env h r1 = filestr h ->
  resolved env h r2 = filestr h ->
  let s1 := snd (StrftimeHandler_emit env (mkState w r1 h)) in
  let s2 := snd (StrftimeHandler_emit env (next_record r2 s1)) in
  st_self s1 = h /\ st_self s2 = h
  /\ w_open (st_world s2) = w_open w
  /\ exists new,
       w_trace (st_world s2) = (w_trace w ++ new)%list
       /\ forallb (fun ev => is_steady_call (ev_call ev)) new = true
       /\ filter (fun ev => is_open_call (ev_call ev) || is_close_call (ev_call ev))
                 new = []
       /\ (length (filter (fun ev => is_open_call (ev_call ev)) new) <= 1)%nat.
Proof.
  intros Hstream H1 H2 s1 s2.
  pose proof (@StrftimeHandler_emit_steady env (mkState w r1 h) f Hstream H1)
    as (S1 & D1 & O1 & E1).
  fold s1 in S1, D1, O1, E1. simpl in S1, D1, O1, E1.
  assert (Hstream2 : stream (st_self (next_record r2 s1)) = Some f)
    by (simpl; now rewrite S1).
  assert (Hpath2 : resolved env (st_self (next_record r2 s1))
                            (st_record (next_record r2 s1))
                   = filestr (st_self (next_record r2 s1)))
    by (simpl; now rewrite S1).
  pose proof (StrftimeHandler_emit_steady env (next_record r2 s1) Hstream2 Hpath2)
    as (S2 & D2 & O2 & E2).
  fold s2 in S2, D2, O2, E2. simpl in S2, D2, O2, E2.
  split; [exact S1|]. split; [congruence|]. split; [congruence|].
  destruct (extends_by_trans E1 E2) as [new [E F]].
  exists new. split; [exact E|]. split; [exact F|].
  pose proof (steady_no_open _ F) as N. split; [exact N|].
  assert (Hnone : filter (fun ev => is_open_call (ev_call ev)) new = []).
  { clear - F. induction new as [|[c x] l IH]; simpl in *; [reflexivity|].
    apply andb_true_iff in F as [Hc Hl]. rewrite (IH Hl).
    destruct c; try discriminate Hc; reflexivity. }
  rewrite Hnone. simpl. lia.
Qed.

Lemma no_reopen_on_same_path_witness :
  let h := st_self Demo.opened in
  let w := st_world Demo.opened in
  let s1 := snd (StrftimeHandler_emit Demo.env0 (mkState w Demo.second_record h)) in
  let s2 := snd (StrftimeHandler_emit Demo.env0 (next_record Demo.third_record s1)) in
  st_self s1 = h /\ st_self s2 = h
  /\ w_open (st_world s2) = w_open w
  /\ exists new,
       w_trace (st_world s2) = (w_trace w ++ new)%list
       /\ forallb (fun ev => is_steady_call (ev_call ev)) new = true
       /\ filter (fun ev => is_open_call (ev_call ev) || is_close_call (ev_call ev))
                 new = []
       /\ (length (filter (fun ev => is_open_call (ev_call ev)) new) <= 1)%nat.
Proof.
  intros h w.
  refine (no_reopen_on_same_path Demo.env0 h Demo.second_record
            Demo.third_record w (f := Demo.log_stream) _ _ _).
  - reflexivity.
  - reflexivity.
  - reflexivity.
Defined.

Example three_records_one_file :
  let s1 := snd (StrftimeHandler_emit Demo.env0
                   (next_record Demo.second_record Demo.opened)) in
  let s2 := snd (StrftimeHandler_emit Demo.env0
                   (next_record Demo.third_record s1)) in
  file_text (st_world s2) "/tmp/x/20140926.log"
  = "hello" ++ newline ++ "again" ++ newline ++ "late" ++ newline.
Proof. reflexivity. Qed.

(** ** Exceptions are accounted for *)

Section Careful.

Context {T : Type} (abs : Call -> Exn -> bool).
















End Careful.

























Example write_failure_is_reported :
  let env := Demo.env_with (Demo.fault_on is_write_call Demo.disk_full) in
  let s := next_record Demo.second_record Demo.opened in
  fst (StrftimeHandler_emit env s) = Ok tt
  /\ last (events_of (StrftimeHandler_emit env) s) (CGmtime 0, None)
     = (CHandleError (set_message (Some "again") Demo.second_record), None).
Proof. split; reflexivity. Qed.

Example channel_failure_is_reported :
  let env := Demo.env_with (Demo.fault_on is_channel_call Demo.disk_full) in
  let s := mkState Demo.world0 Demo.info_record setup_msgout_h in
  fst (MsgOutHandler_emit env s) = Ok tt
  /\ map ev_call (events_of (MsgOutHandler_emit env) s)
     = [CGetMessage "hello" [];
        CStyleFormat "%(levelname)s:%(message)s"
                     (set_message (Some "hello") Demo.info_record);
        CMsgout "INFO:hello";
        CHandleError (set_message (Some "hello") Demo.info_record)].
Proof. split; reflexivity. Qed.

(** ** Formatting in an environment that lets it be *)



(** ** The rotating sink: creating the directory *)


Arguments mem : simpl never.



(** ** The rotating sink: writing the record *)














(** ** The rotating sink: rolling over *)





(** ** The order of a rollover *)










(** The calls of that rollover, in order. *)
Example rollover_calls :
  map ev_call
      (events_of (StrftimeHandler_emit Demo.env0)
                 (next_record Demo.next_day_record Demo.opened))
  = [CGmtime (Demo.noon + 86400);
     CStrftime "/tmp/x/%Y%m%d.log" (Demo.gmtime (Demo.noon + 86400));
     CAbspath "/tmp/x/20140927.log";
     CClose Demo.log_stream;
     CMakedirs "/tmp/x";
     CIsdir "/tmp/x";
     COpen "/tmp/x/20140927.log" "a";
     CGetMessage "tomorrow" [];
     CStyleFormat "%(message)s"
                  (set_message (Some "tomorrow") Demo.next_day_record);
     CWrite (mkStream 4 "/tmp/x/20140927.log") ("tomorrow" ++ newline);
     CFlush (mkStream 4 "/tmp/x/20140927.log")].
Proof. reflexivity. Qed.


(** ** The rotating sink when only the directory calls may fail *)



















(** The second [emit] of the same time stamp does not even try to make
    the directory, and does not fail. *)
Example second_emit_same_timestamp :
  let s1 := snd (StrftimeHandler_emit Demo.env0
                   (mkState Demo.world0 Demo.info_record
                            (Demo.tmp_handler Demo.env0))) in
  let run := StrftimeHandler_emit Demo.env0 (next_record Demo.info_record s1) in
  mem "/tmp/x" (w_dirs Demo.world0) = false
  /\ mem "/tmp/x" (w_dirs (st_world s1)) = true
  /\ fst run = Ok tt
  /\ map ev_call (events_of (StrftimeHandler_emit Demo.env0)
                            (next_record Demo.info_record s1))
     = [CGmtime Demo.noon;
        CStrftime "/tmp/x/%Y%m%d.log" (Demo.gmtime Demo.noon);
        CGetMessage "hello" [];
        CStyleFormat "%(message)s" (set_message (Some "hello") Demo.info_record);
        CWrite Demo.log_stream ("hello" ++ newline);
        CFlush Demo.log_stream]
  /\ file_text (st_world (snd run)) "/tmp/x/20140926.log"
     = "hello" ++ newline ++ "hello" ++ newline.
Proof. repeat split; reflexivity. Qed.

(** A [chmod] that raises something other than an [OSError], a
    [TypeError] for a mode that is no integer, is not swallowed: it goes
    to [handleError] and the record is not written. *)
Example chmod_type_error_is_reported :
  let env := Demo.env_with (Demo.fault_on is_chmod_call Demo.type_error) in
  let s := mkState Demo.world0 Demo.info_record (Demo.tmp_handler env) in
  fst (StrftimeHandler_emit env s) = Ok tt
  /\ w_files (st_world (snd (StrftimeHandler_emit env s))) = []
  /\ last (events_of (StrftimeHandler_emit env) s) (CIsdir "", None)
     = (CHandleError Demo.info_record, None).
Proof. repeat split; reflexivity. Qed.
